(** * Agri-Policy simulator: the dashboard script and its persona generator

    Shallow embedding of [IREL_AG2050_Final_Visual_Attribution.py].

    - The pandas table is a list of rows in file order; a boolean-mask
      selection keeps the matching rows in that order, [.values[0]] is the
      head of a column and raises [IndexError] on an empty one.
    - The four metric columns are binary64 numbers ([numpy.float64]), as the
      data model types them: Rocq's primitive floats, whose operations are
      the IEEE 754 ones the script runs.  A column that holds whole numbers
      only is read as int64 by pandas and is outside this model.
    - [script] is lines 24 to 114, run once for a request the sidebar has
      already produced; an exception that escapes these lines is the
      [Raise] branch of [result].
    - [f"{x:.Nf}"] is modelled by [format_f], the correctly rounded
      (half-to-even on the exact binary value) fixed-point rendering.
    - Strings are byte strings holding the UTF-8 text of the source.
    - The sidebar widgets (lines 15-21), the rounded breakdown table and
      the charts (lines 118-167) are not part of [script]: what the slider
      or a chart may raise is not modelled, and no statement below speaks of
      a run beyond line 114. *)

From Stdlib Require Import ZArith Floats String Ascii List Bool Lia.
From Stdlib Require Import DecimalString.
Import ListNotations.

#[local] Set Warnings "-inexact-float".

(** ** Exceptions on the request path *)

Inductive exn : Type :=
| IndexError.

Inductive result (A : Type) : Type :=
| Ok (a : A)
| Raise (e : exn).

Arguments Ok {A} a.
Arguments Raise {A} e.

Definition bind {A B : Type} (m : result A) (k : A -> result B) : result B :=
  match m with
  | Ok a => k a
  | Raise e => Raise e
  end.

Notation "x <- m ;; k" := (bind m (fun x => k))
  (at level 61, m at next level, right associativity).

(** ** The dataset *)

Record MetricRow : Type := {
  County : string;
  Year : Z;
  CRISPR_YieldBoost : float;
  SolarAdoption : float;
  BiomassOutput : float;
  CarbonCreditsEarned : float
}.

Definition DataFrame : Type := list MetricRow.

(** [df[(df["County"] == county) & (df["Year"] == year)]] *)
Definition select (df : DataFrame) (county : string) (year : Z) : DataFrame :=
  filter (fun r => String.eqb (County r) county && Z.eqb (Year r) year) df.

(** [frame[col].values[0]] *)
Definition values0 {A : Type} (col : MetricRow -> A) (frame : DataFrame)
  : result A :=
  match frame with
  | [] => Raise IndexError
  | r :: _ => Ok (col r)
  end.

(** [frame.empty] *)
Definition empty (frame : DataFrame) : bool :=
  match frame with
  | [] => true
  | _ :: _ => false
  end.

(** ** Number formatting *)

Module Fmt.

Open Scope string_scope.

Definition of_N (n : N) : string := NilZero.string_of_uint (N.to_uint n).

(** [str(i)] and [f"{i}"] for a Python int. *)
Definition of_Z (z : Z) : string := NilZero.string_of_int (Z.to_int z).

Fixpoint zeros (n : nat) : string :=
  match n with
  | O => ""
  | S n' => "0" ++ zeros n'
  end.

(** Left-pad with zeros up to [width] characters. *)
Definition pad0 (width : nat) (s : string) : string :=
  zeros (width - String.length s) ++ s.

(** The exact value [m * 2^e], scaled by [10^p] and rounded to the nearest
    integer, ties to even. *)
Definition scaled_round (m : positive) (e : Z) (p : nat) : N :=
  let num := (Z.pos m * 10 ^ Z.of_nat p * 2 ^ Z.max e 0)%Z in
  let den := (2 ^ Z.max (- e) 0)%Z in
  let q := (num / den)%Z in
  let r := (num mod den)%Z in
  let up := match (2 * r ?= den)%Z with
            | Gt => true
            | Eq => Z.odd q
            | Lt => false
            end in
  Z.to_N (if up then q + 1 else q).

(** The [,] option: a comma before every group of three integer digits,
    counted from the right. *)
Fixpoint commas (digits : string) : string :=
  match digits with
  | "" => ""
  | String c rest =>
      let n := String.length rest in
      String c ((if (0 <? n)%nat && (n mod 3 =? 0)%nat then "," else "")
                ++ commas rest)
  end.

Definition fixed (grouping : bool) (n : N) (p : nat) : string :=
  let scale := (10 ^ N.of_nat p)%N in
  let whole := of_N (n / scale) in
  (if grouping then commas whole else whole)
  ++ match p with
     | O => ""
     | S _ => "." ++ pad0 p (of_N (n mod scale))
     end.

Definition sign (s : bool) : string := if s then "-" else "".

Definition format_fixed (grouping : bool) (p : nat) (x : float) : string :=
  match Prim2SF x with
  | S754_nan => "nan"
  | S754_infinity s => sign s ++ "inf"
  | S754_zero s => sign s ++ fixed grouping 0 p
  | S754_finite s m e => sign s ++ fixed grouping (scaled_round m e p) p
  end.

(** [f"{x:.pf}"] *)
Definition format_f (p : nat) (x : float) : string := format_fixed false p x.

(** [f"{x:,.pf}"] *)
Definition format_comma_f (p : nat) (x : float) : string :=
  format_fixed true p x.

End Fmt.

(** ** One request: the sidebar widgets and the persona form *)

Record Request : Type := {
  selected_county : string;
  selected_year : Z;
  agro_toggle : bool;
  solar_toggle : bool;
  bio_toggle : bool;
  persona : string;
  question : string
}.

(** The four adjusted figures after the toggles. *)
Record Adjusted : Type := {
  yield_boost : float;
  solar_pct : float;
  biomass : float;
  carbon_offset : float
}.

(** The revenue figures of the economic impact block. *)
Record Economic : Type := {
  yield_revenue : float;
  solar_savings : float;
  bio_revenue : float;
  carbon_revenue : float;
  total_impact : float
}.

(** What one run of the script hands to the page. *)
Record Page : Type := {
  adjusted : Adjusted;
  kpis : list string;
  response : option string;
  economic : Economic;
  impact : string
}.

Open Scope float_scope.

(** *** Filter data, apply toggles (lines 24-38) *)

Definition apply_toggles (df : DataFrame) (rq : Request) : result Adjusted :=
  let data_filtered := select df (selected_county rq) (selected_year rq) in
  yield_boost <- values0 CRISPR_YieldBoost data_filtered ;;
  solar_pct <- values0 SolarAdoption data_filtered ;;
  biomass <- values0 BiomassOutput data_filtered ;;
  carbon_offset <- values0 CarbonCreditsEarned data_filtered ;;
  let yield_boost := if agro_toggle rq then yield_boost * 1.1 else yield_boost in
  let solar_pct := if solar_toggle rq then solar_pct * 1.15 else solar_pct in
  let biomass := if bio_toggle rq then biomass * 1.2 else biomass in
  let carbon_offset :=
    if bio_toggle rq then carbon_offset * 1.05 else carbon_offset in
  Ok {| yield_boost := yield_boost;
        solar_pct := solar_pct;
        biomass := biomass;
        carbon_offset := carbon_offset |}.

(** *** Display adjusted KPIs (lines 44-48) *)

Definition display_kpis (a : Adjusted) : list string :=
  [ Fmt.format_f 1 (yield_boost a);
    Fmt.format_f 1 (solar_pct a);
    Fmt.format_f 2 (biomass a);
    Fmt.format_f 2 (carbon_offset a) ].

(** *** Dynamic AI persona logic (lines 51-87) *)

(** Python's [min(a, b)]: the first argument unless the second compares
    strictly below it. *)
Definition py_min (a b : float) : float := if b <? a then b else a.

Definition risk_score (yield_val solar_val bio_val : float) : float :=
  100 - py_min 100 (yield_val / 6 + solar_val + bio_val * 2).

Definition no_data : string := "No data available for this county and year.".

Definition no_persona : string := "No persona selected.".

Definition generate_persona_response
  (persona county : string) (year : Z) (df : DataFrame) : result string :=
  let row := select df county year in
  if empty row then Ok no_data
  else
    yield_val <- values0 CRISPR_YieldBoost row ;;
    solar_val <- values0 SolarAdoption row ;;
    bio_val <- values0 BiomassOutput row ;;
    carbon_val <- values0 CarbonCreditsEarned row ;;
    if String.eqb persona "ÉIREA" then
      Ok ("ÉIREA: In " ++ Fmt.of_Z year ++ ", " ++ county
          ++ " achieved a CRISPR-driven yield boost of "
          ++ Fmt.format_f 1 yield_val ++ " kg/ha. "
          ++ "This provides a solid base for transitioning to more resilient agroforestry systems. "
          ++ "Agroforestry support programs should prioritize regions with >"
          ++ Fmt.format_f 1 yield_val
          ++ " kg/ha to capitalize on biological synergies.")%string
    else if String.eqb persona "SOLARA" then
      Ok ("SOLARA: As of " ++ Fmt.of_Z year ++ ", solar adoption in " ++ county
          ++ " reached " ++ Fmt.format_f 1 solar_val ++ "%. "
          ++ "If current CAP solar incentives continue, we expect adoption to exceed "
          ++ Fmt.format_f 1 (solar_val * 1.15) ++ "% by "
          ++ Fmt.of_Z (year + 1) ++ ". "
          ++ "Consider aligning grid feed-in tariffs accordingly.")%string
    else if String.eqb persona "GRAINA" then
      Ok ("GRAINA: With " ++ Fmt.format_f 0 yield_val ++ " kg/ha in yields and "
          ++ Fmt.format_f 2 carbon_val ++ " mtCO₂ in credits, "
          ++ county
          ++ " is positioned to enhance traceability premiums by 8–12% over baseline. "
          ++ "Local cooperatives should focus on export certification training in Q"
          ++ Fmt.of_Z (year mod 4 + 1) ++ ".")%string
    else if String.eqb persona "AI-SCEAL" then
      let risk_score := risk_score yield_val solar_val bio_val in
      Ok ("AI-SCEAL: Citizen confidence correlates with visible green returns. "
          ++ "In " ++ Fmt.of_Z year
          ++ ", the combined bio-solar-carbon mix in " ++ county
          ++ " suggests a policy risk score of "
          ++ Fmt.format_f 1 risk_score ++ ". "
          ++ "Targeted awareness campaigns should begin immediately.")%string
    else Ok no_persona.

(** *** AI persona interface (lines 92-97) *)

Definition persona_interface (df : DataFrame) (rq : Request)
  : result (option string) :=
  if String.eqb (question rq) "" then Ok None
  else
    response <- generate_persona_response
                  (persona rq) (selected_county rq) (selected_year rq) df ;;
    Ok (Some response).

(** *** Economic impact simulator (lines 104-111) *)

Definition grain_price_per_kg : float := 0.22.
Definition price_per_tonne : float := 85.

Definition economic_impact (a : Adjusted) : Economic :=
  let solar_savings := solar_pct a * 120 in
  let bio_revenue := biomass a * 45 in
  let carbon_revenue := carbon_offset a * price_per_tonne in
  let yield_revenue := yield_boost a * grain_price_per_kg in
  let total_impact :=
    yield_revenue + solar_savings + bio_revenue + carbon_revenue in
  {| yield_revenue := yield_revenue;
     solar_savings := solar_savings;
     bio_revenue := bio_revenue;
     carbon_revenue := carbon_revenue;
     total_impact := total_impact |}.

(** *** Revenue headline (line 114) *)

Definition display_impact (e : Economic) : string :=
  Fmt.format_comma_f 0 (total_impact e).

(** *** Lines 24 to 114, in order *)

Definition script (df : DataFrame) (rq : Request) : result Page :=
  a <- apply_toggles df rq ;;
  let kpis := display_kpis a in
  response <- persona_interface df rq ;;
  let e := economic_impact a in
  Ok {| adjusted := a;
        kpis := kpis;
        response := response;
        economic := e;
        impact := display_impact e |}.

(** ** Sign of a binary64 value *)

(** The sign bit is clear and the value is a number: [+0], a positive finite
    value or [+inf].  Such a value prints without a leading minus. *)
Definition sign_clear (x : spec_float) : bool :=
  match x with
  | S754_zero s | S754_infinity s | S754_finite s _ _ => negb s
  | S754_nan => false
  end.

(** ** Sample data *)

Module Sample.

Open Scope string_scope.

Definition row (county : string) (year : Z) (y s b c : float) : MetricRow :=
  {| County := county; Year := year;
     CRISPR_YieldBoost := y; SolarAdoption := s;
     BiomassOutput := b; CarbonCreditsEarned := c |}.

Definition request (county : string) (year : Z) (agro solar bio : bool)
  (persona question : string) : Request :=
  {| selected_county := county; selected_year := year;
     agro_toggle := agro; solar_toggle := solar; bio_toggle := bio;
     persona := persona; question := question |}.

(** The row of the worked example. *)
Definition example_row (county : string) (year : Z) : MetricRow :=
  row county year 1000 30 50 10.

(** Two counties, each missing one year of the slider's range. *)
Definition gap_df : DataFrame :=
  [ row "Cork" 2025 1000 30 50 10; row "Dublin" 2026 900 25 40 8 ].

(** Cork is offered by the county selector and 2026 lies between the
    smallest and largest year of [gap_df]. *)
Definition gap_request : Request :=
  request "Cork" 2026 false false false "SOLARA" "What next?".

(** Two rows under one (County, Year) key. *)
Definition dup_df : DataFrame :=
  [ row "Kerry" 2024 700 12 20 5;
    row "Cork" 2025 1000 30 50 10;
    row "Cork" 2025 400 80 5 3 ].

Definition dup_request : Request :=
  request "Cork" 2025 true true true "GRAINA" "Which row?".

End Sample.

(** ** A request the sidebar lets a user pick

    The county selector offers the counties that occur in the table (line
    15).  The year slider (line 16) spans at least the smallest to the
    largest year of the table, and these two must differ for the slider to
    exist.  A request that passes this test can be picked; the test does not
    list every such request, since the slider also reaches its default,
    2025. *)
Definition selectable (df : DataFrame) (rq : Request) : bool :=
  existsb (fun r => String.eqb (County r) (selected_county rq)) df
  && existsb (fun r => Z.leb (Year r) (selected_year rq)) df
  && existsb (fun r => Z.leb (selected_year rq) (Year r)) df
  && existsb (fun r => existsb (fun r' => Z.ltb (Year r) (Year r')) df) df.

(** ** Rows behind the trend charts (lines 128, 140, 152)

    [df[df["County"] == selected_county]], the table handed to the yield
    trend, the 3D scatter and the four year-over-year line charts. *)
Definition hist (df : DataFrame) (selected_county : string) : DataFrame :=
  filter (fun r => String.eqb (County r) selected_county) df.

(** ** Vocabulary of the statements *)

(** A row stored under the requested (County, Year) key. *)
Definition matches (rq : Request) (r : MetricRow) : Prop :=
  County r = selected_county rq /\ Year r = selected_year rq.

(** The four raw metrics of a row, in column order. *)
Definition metrics (r : MetricRow) : list float :=
  [ CRISPR_YieldBoost r; SolarAdoption r; BiomassOutput r;
    CarbonCreditsEarned r ].

(** A printed figure that starts with a minus sign. *)
Definition leading_minus (text : string) : bool :=
  match text with
  | String c _ => Ascii.eqb c "-"
  | EmptyString => false
  end.

(** ** More sample data *)

Module Cases.

Open Scope string_scope.

(** A table with a blank yield cell, read as NaN. *)
Definition blank_df : DataFrame :=
  [ Sample.row "Mayo" 2030 nan 40 12 6;
    Sample.row "Mayo" 2031 1200 nan 12 6 ].

Definition mayo (year : Z) (persona question : string) : Request :=
  Sample.request "Mayo" year true false true persona question.

End Cases.

(** * Binary64 facts: the sign of a rounded difference *)

Module Binary64.

Open Scope Z_scope.

(** Shifting right never turns a non-negative mantissa negative. *)
Lemma shr_1_nonneg mrs : 0 <= shr_m mrs -> 0 <= shr_m (shr_1 mrs).
Proof.
  destruct mrs as [m r s]; simpl.
  destruct m as [|[p|p|]|p]; simpl; lia.
Qed.

Lemma iter_shr_1_nonneg n : forall mrs,
  0 <= shr_m mrs -> 0 <= shr_m (iter_pos shr_1 n mrs).
Proof.
  induction n as [n IH|n IH|]; intros mrs H; simpl.
  - apply IH, IH, shr_1_nonneg, H.
  - apply IH, IH, H.
  - apply shr_1_nonneg, H.
Qed.

Lemma shr_fexp_nonneg m e l :
  0 <= m -> 0 <= shr_m (fst (shr_fexp prec emax m e l)).
Proof.
  intros H. unfold shr_fexp, shr.
  assert (H0 : 0 <= shr_m (shr_record_of_loc m l))
    by (destruct l as [|[]]; exact H).
  destruct (fexp prec emax (Zdigits2 m + e) - e); simpl; auto.
  apply iter_shr_1_nonneg, H0.
Qed.

Lemma round_nearest_even_nonneg m l : 0 <= m -> 0 <= round_nearest_even m l.
Proof.
  intros H. destruct l as [|[]]; simpl; try lia.
  destruct (Z.even m); lia.
Qed.

(** Rounding a non-negative integer significand with sign bit clear yields
    [+0], a positive finite value or [+inf], never NaN. *)
Lemma binary_round_aux_sign m e l :
  0 <= m -> sign_clear (binary_round_aux prec emax false m e l) = true.
Proof.
  intros H. unfold binary_round_aux.
  pose proof (shr_fexp_nonneg m e l H) as H1.
  destruct (shr_fexp prec emax m e l) as [mrs' e']; simpl in H1.
  pose proof (shr_fexp_nonneg _ e' loc_Exact
                (round_nearest_even_nonneg _ (loc_of_shr_record mrs') H1))
    as H2.
  destruct (shr_fexp prec emax _ e' loc_Exact) as [mrs'' e'']; simpl in H2.
  destruct (shr_m mrs'') as [|q|q]; try reflexivity; try lia.
  destruct (e'' <=? emax - prec); reflexivity.
Qed.

Lemma binary_normalize_sign z e :
  0 <= z -> sign_clear (binary_normalize prec emax z e false) = true.
Proof.
  intros H. destruct z as [|m|m]; try reflexivity; try lia.
  simpl. unfold binary_round.
  destruct (shl_align m e _) as [mz ez].
  apply binary_round_aux_sign. lia.
Qed.

Lemma digits2_pos_bound m : Z.pos m < 2 ^ Z.pos (digits2_pos m).
Proof.
  induction m as [m IH|m IH|]; simpl digits2_pos;
    rewrite ?Pos2Z.inj_succ, ?Z.pow_succ_r by lia; lia.
Qed.

(** A valid binary64 significand has at most 53 bits. *)
Lemma valid_mantissa_bound s m e :
  valid_binary (S754_finite s m e) = true -> Z.pos m < 2 ^ 53.
Proof.
  intros H. change (bounded prec emax m e = true) in H.
  unfold bounded, canonical_mantissa, fexp in H.
  apply andb_prop in H. destruct H as [H _].
  apply Z.eqb_eq in H.
  assert (Hd : Z.pos (digits2_pos m) <= 53) by (unfold prec in H; lia).
  eapply Z.lt_le_trans; [apply digits2_pos_bound|].
  apply Z.pow_le_mono_r; lia.
Qed.

Lemma shl_align_fst m e e' :
  e' <= e -> Z.pos (fst (shl_align m e e')) = Z.pos m * 2 ^ (e - e').
Proof.
  intros H. unfold shl_align.
  destruct (e' - e) as [|d|d] eqn:E; simpl fst.
  - replace (e - e') with 0 by lia. rewrite Z.pow_0_r. lia.
  - lia.
  - change (Pos.iter xO m d) with (shift_pos d m).
    rewrite shift_pos_correct. replace (e - e') with (Z.pos d) by lia.
    rewrite Z.pow_pos_fold. lia.
Qed.

Lemma SFltb_finite_pos m1 e1 m2 e2 :
  SFltb (S754_finite false m1 e1) (S754_finite false m2 e2) = true ->
  e1 < e2 \/ e1 = e2 /\ Z.pos m1 < Z.pos m2.
Proof.
  unfold SFltb, SFcompare.
  destruct (Z.compare_spec e1 e2) as [E|E|E]; intros H.
  - right. split; [exact E|].
    destruct (Pos.compare_cont Eq m1 m2) eqn:Em; try discriminate H.
    exact Em.
  - left. exact E.
  - discriminate H.
Qed.

(** The integer difference [SFsub] rounds: a normal positive [mc * 2^ec]
    minus anything negative or below it, both aligned on the smaller
    exponent. *)
Lemma aligned_sub_nonneg s m e mc ec :
  Z.pos m < 2 ^ 53 ->
  2 ^ 52 <= Z.pos mc ->
  s = true \/ e < ec \/ e = ec /\ Z.pos m < Z.pos mc ->
  0 <= Z.pos (fst (shl_align mc ec (Z.min ec e)))
       - cond_Zopp s (Z.pos (fst (shl_align m e (Z.min ec e)))).
Proof.
  intros Hm Hn Hc.
  rewrite !shl_align_fst by lia.
  assert (Ha : 1 <= 2 ^ (e - Z.min ec e))
    by (apply (Z.pow_le_mono_r 2 0); lia).
  assert (Hb : 1 <= 2 ^ (ec - Z.min ec e))
    by (apply (Z.pow_le_mono_r 2 0); lia).
  destruct Hc as [->|[Hc|[-> Hc]]].
  - unfold cond_Zopp. nia.
  - assert (Hd : 2 ^ 1 <= 2 ^ (ec - Z.min ec e))
      by (apply Z.pow_le_mono_r; lia).
    rewrite Z.min_r, Z.sub_diag in * by lia.
    change (2 ^ 0) with 1. change (2 ^ 1) with 2 in Hd.
    change (2 ^ 53) with (2 * 2 ^ 52) in Hm.
    destruct s; unfold cond_Zopp; nia.
  - rewrite Z.min_id, Z.sub_diag.
    change (2 ^ 0) with 1. destruct s; unfold cond_Zopp; lia.
Qed.

(** [c - x] for a normal positive [c] and any [x < c]: the sign bit of the
    result is clear. *)
Lemma SFsub_below_sign mc ec x :
  2 ^ 52 <= Z.pos mc ->
  valid_binary x = true ->
  SFltb x (S754_finite false mc ec) = true ->
  sign_clear (SF64sub (S754_finite false mc ec) x) = true.
Proof.
  intros Hn Hv Hlt.
  destruct x as [s|s| |s m e]; try discriminate Hlt.
  - reflexivity.
  - destruct s; [reflexivity|discriminate Hlt].
  - unfold SF64sub, SFsub.
    apply binary_normalize_sign.
    apply aligned_sub_nonneg.
    + exact (valid_mantissa_bound _ _ _ Hv).
    + exact Hn.
    + destruct s; [left; reflexivity|right].
      apply SFltb_finite_pos, Hlt.
Qed.

Lemma Prim2SF_100 : Prim2SF 100 = S754_finite false 7036874417766400 (-46).
Proof. reflexivity. Qed.

Lemma sign_clear_leb x :
  sign_clear (Prim2SF x) = true -> (0 <=? x)%float = true.
Proof.
  rewrite leb_spec. change (Prim2SF 0) with (S754_zero false).
  destruct (Prim2SF x) as [[]|[]| |[] m e]; intros H;
    try discriminate H; reflexivity.
Qed.

Lemma sign_clear_ltb x :
  sign_clear (Prim2SF x) = true -> (x <? 0)%float = false.
Proof.
  rewrite ltb_spec. change (Prim2SF 0) with (S754_zero false).
  destruct (Prim2SF x) as [[]|[]| |[] m e]; intros H;
    try discriminate H; reflexivity.
Qed.

End Binary64.

(** * The risk score *)

(** Whatever the capped sum is, [100 - min(100, x)] has its sign bit clear:
    either [x < 100] and the difference of the two is positive, or the cap
    applies and the difference is [+0]. *)
Lemma risk_cap_sign x : sign_clear (Prim2SF (100 - py_min 100 x)) = true.
Proof.
  unfold py_min. destruct (x <? 100) eqn:E.
  - rewrite sub_spec. rewrite ltb_spec in E.
    rewrite Binary64.Prim2SF_100 in *.
    apply Binary64.SFsub_below_sign; [lia | apply Prim2SF_valid | exact E].
  - reflexivity.
Qed.

Lemma risk_score_sign y s b : sign_clear (Prim2SF (risk_score y s b)) = true.
Proof. unfold risk_score. apply risk_cap_sign. Qed.

(** C5 (as amended): for every metric input the AI-SCEAL risk score
    [100 - min(100, Yield/6 + Solar + Biomass*2)] is at least 0, because the
    [min] caps the subtracted sum at 100; there is no clamp on the other
    side, and for some inputs the score exceeds 100. *)
Theorem risk_score_floored_at_zero :
  (forall y s b, (0 <=? risk_score y s b) = true) /\
  (exists y s b, (100 <? risk_score y s b) = true).
Proof.
  split.
  - intros y s b. apply Binary64.sign_clear_leb, risk_score_sign.
  - exists (-600), 0, 0. reflexivity.
Qed.

(** C5 (as stated) fails: no metric input makes the risk score negative. *)
Lemma risk_score_never_negative :
  ~ exists y s b, (risk_score y s b <? 0) = true.
Proof.
  intros (y & s & b & H).
  rewrite (Binary64.sign_clear_ltb _ (risk_score_sign y s b)) in H.
  discriminate H.
Qed.

(** * Row selection *)

Lemma select_In df county year r :
  In r (select df county year) -> County r = county /\ Year r = year.
Proof.
  unfold select. intros H. apply filter_In in H. destruct H as [_ H].
  apply andb_prop in H. destruct H as [Hc Hy].
  split; [apply String.eqb_eq, Hc | apply Z.eqb_eq, Hy].
Qed.

(** The first selected row is selected again from the table that holds
    nothing but that row. *)
Lemma select_first_alone df county year r rest :
  select df county year = r :: rest -> select [r] county year = [r].
Proof.
  intros H.
  destruct (select_In df county year r) as [Hc Hy];
    [rewrite H; left; reflexivity|].
  unfold select. simpl. rewrite <- Hc, <- Hy.
  rewrite String.eqb_refl, Z.eqb_refl. reflexivity.
Qed.

Lemma select_own_key r : select [r] (County r) (Year r) = [r].
Proof.
  unfold select. simpl. rewrite String.eqb_refl, Z.eqb_refl. reflexivity.
Qed.

(** * The toggles *)

(** Once the key resolves, the four adjusted figures are read off the first
    selected row. *)
Lemma apply_toggles_resolved df rq r rest :
  select df (selected_county rq) (selected_year rq) = r :: rest ->
  apply_toggles df rq =
  Ok {| yield_boost := if agro_toggle rq then CRISPR_YieldBoost r * 1.1
                       else CRISPR_YieldBoost r;
        solar_pct := if solar_toggle rq then SolarAdoption r * 1.15
                     else SolarAdoption r;
        biomass := if bio_toggle rq then BiomassOutput r * 1.2
                   else BiomassOutput r;
        carbon_offset := if bio_toggle rq then CarbonCreditsEarned r * 1.05
                         else CarbonCreditsEarned r |}.
Proof. intros H. unfold apply_toggles. rewrite H. reflexivity. Qed.

Lemma apply_toggles_missing df rq :
  select df (selected_county rq) (selected_year rq) = [] ->
  apply_toggles df rq = Raise IndexError.
Proof. intros H. unfold apply_toggles. rewrite H. reflexivity. Qed.

(** * The persona generator *)

Lemma generate_persona_response_missing persona county year df :
  select df county year = [] ->
  generate_persona_response persona county year df = Ok no_data.
Proof. intros H. unfold generate_persona_response. rewrite H. reflexivity. Qed.

(** The generator reads the first selected row and nothing else of the
    table. *)
Lemma generate_persona_response_first persona county year df r rest :
  select df county year = r :: rest ->
  generate_persona_response persona county year df =
  generate_persona_response persona county year [r].
Proof.
  intros H. unfold generate_persona_response.
  rewrite (select_first_alone _ _ _ _ _ H), H. reflexivity.
Qed.

(** A resolved key always gets an answer: no branch of the generator
    raises. *)
Lemma generate_persona_response_total persona county year df :
  exists text, generate_persona_response persona county year df = Ok text.
Proof.
  unfold generate_persona_response.
  destruct (select df county year) as [|r rest]; simpl.
  - eexists. reflexivity.
  - destruct (String.eqb persona "ÉIREA"); [eexists; reflexivity|].
    destruct (String.eqb persona "SOLARA"); [eexists; reflexivity|].
    destruct (String.eqb persona "GRAINA"); [eexists; reflexivity|].
    destruct (String.eqb persona "AI-SCEAL"); eexists; reflexivity.
Qed.

Lemma persona_interface_total df rq :
  exists answer, persona_interface df rq = Ok answer.
Proof.
  unfold persona_interface.
  destruct (String.eqb (question rq) ""); [eexists; reflexivity|].
  destruct (generate_persona_response_total
              (persona rq) (selected_county rq) (selected_year rq) df)
    as [text ->].
  eexists. reflexivity.
Qed.

(** The form reads the county, the year, the persona and the question of a
    request, not its toggles. *)
Lemma persona_interface_ext df rq rq' :
  selected_county rq' = selected_county rq ->
  selected_year rq' = selected_year rq ->
  persona rq' = persona rq ->
  question rq' = question rq ->
  persona_interface df rq' = persona_interface df rq.
Proof.
  intros Hc Hy Hp Hq. unfold persona_interface.
  rewrite Hc, Hy, Hp, Hq. reflexivity.
Qed.

(** * The script *)

Lemma script_missing df rq :
  select df (selected_county rq) (selected_year rq) = [] ->
  script df rq = Raise IndexError.
Proof.
  intros H. unfold script. rewrite (apply_toggles_missing _ _ H). reflexivity.
Qed.

(** With a resolved key the script runs to its end. *)
Lemma script_resolved df rq r rest :
  select df (selected_county rq) (selected_year rq) = r :: rest ->
  exists a answer,
    apply_toggles df rq = Ok a /\
    persona_interface df rq = Ok answer /\
    script df rq = Ok {| adjusted := a;
                         kpis := display_kpis a;
                         response := answer;
                         economic := economic_impact a;
                         impact := display_impact (economic_impact a) |}.
Proof.
  intros H. unfold script.
  rewrite (apply_toggles_resolved _ _ _ _ H).
  destruct (persona_interface_total df rq) as [answer Ha]. rewrite Ha.
  eexists. exists answer. repeat split.
Qed.

(** The revenue figures of a run are those of its adjusted metrics. *)
Lemma script_economic df rq page :
  script df rq = Ok page -> economic page = economic_impact (adjusted page).
Proof.
  unfold script. destruct (apply_toggles df rq) as [a|e]; [|discriminate].
  simpl. destruct (persona_interface df rq) as [answer|e]; [|discriminate].
  simpl. intros H. injection H as <-. reflexivity.
Qed.

(** * The claims *)

Open Scope string_scope.

(** C1: whenever the selected (County, Year) resolves to a row, the adjusted
    metrics of the run are that row's base values with each multiplier
    applied exactly when its toggle is on: the yield times 1.1 iff the agro
    toggle is on, the solar share times 1.15 iff the solar toggle is on,
    and, iff the bio toggle is on, the biomass times 1.2 and the carbon
    credits times 1.05. *)
Theorem toggles_applied_iff_on df rq r rest :
  select df (selected_county rq) (selected_year rq) = r :: rest ->
  exists page,
    script df rq = Ok page /\
    yield_boost (adjusted page) =
      (if agro_toggle rq then CRISPR_YieldBoost r * 1.1
       else CRISPR_YieldBoost r) /\
    solar_pct (adjusted page) =
      (if solar_toggle rq then SolarAdoption r * 1.15 else SolarAdoption r) /\
    biomass (adjusted page) =
      (if bio_toggle rq then BiomassOutput r * 1.2 else BiomassOutput r) /\
    carbon_offset (adjusted page) =
      (if bio_toggle rq then CarbonCreditsEarned r * 1.05
       else CarbonCreditsEarned r).
Proof.
  intros H.
  destruct (script_resolved _ _ _ _ H) as (a & answer & Ha & _ & Hs).
  rewrite (apply_toggles_resolved _ _ _ _ H) in Ha.
  injection Ha as <-.
  eexists. split; [exact Hs|]. repeat split.
Qed.

Lemma toggles_applied_iff_on_witness :
  select Sample.dup_df "Kerry" 2024 = [Sample.row "Kerry" 2024 700 12 20 5] /\
  exists page,
    script Sample.dup_df
      (Sample.request "Kerry" 2024 false true true "SOLARA" "") = Ok page /\
    yield_boost (adjusted page) = 700%float /\
    solar_pct (adjusted page) = (12 * 1.15)%float /\
    biomass (adjusted page) = (20 * 1.2)%float /\
    carbon_offset (adjusted page) = (5 * 1.05)%float.
Proof.
  split; [reflexivity|].
  apply (toggles_applied_iff_on Sample.dup_df
           (Sample.request "Kerry" 2024 false true true "SOLARA" "")
           (Sample.row "Kerry" 2024 700 12 20 5) []).
  reflexivity.
Defined.

(** C2 (code defect): Cork / 2026 can be picked in the sidebar of
    [Sample.gap_df] and matches no row.  The persona generator would answer
    with its "no data" sentinel, but the script never gets that far: the
    unguarded [.values[0]] of line 27 raises [IndexError]. *)
Theorem missing_key_raises_IndexError :
  selectable Sample.gap_df Sample.gap_request = true /\
  select Sample.gap_df "Cork" 2026 = [] /\
  generate_persona_response "SOLARA" "Cork" 2026 Sample.gap_df =
    Ok "No data available for this county and year." /\
  script Sample.gap_df Sample.gap_request = Raise IndexError.
Proof. repeat split. Qed.

(** C3: for every adjusted-metrics value, the yield revenue is the yield
    times 0.22, the solar savings the solar share times 120, the biomass
    revenue the biomass times 45, the carbon revenue the carbon credits
    times 85, and the total is the sum of these four, added in the order
    yield, solar, biomass, carbon. *)
Theorem economic_breakdown_components (m : Adjusted) :
  let e := economic_impact m in
  yield_revenue e = yield_boost m * 0.22 /\
  solar_savings e = solar_pct m * 120 /\
  bio_revenue e = biomass m * 45 /\
  carbon_revenue e = carbon_offset m * 85 /\
  total_impact e =
    yield_revenue e + solar_savings e + bio_revenue e + carbon_revenue e.
Proof. repeat split. Qed.

(** C4: the worked example.  For the row (Yield 1000, Solar 30, Biomass 50,
    Carbon 10) under any key, with the agro and bio toggles on and the solar
    toggle off, a run gives the adjusted metrics (1100.0, 30.0, 60.0, 10.5),
    shown as "1100.0", "30.0", "60.00", "10.50", and the economic breakdown
    (242.0, 3600.0, 2700.0, 892.5) with total 7434.5, headlined at zero
    decimals as "7,434". *)
Theorem spec_example_values county year persona question :
  exists page,
    script [Sample.example_row county year]
      (Sample.request county year true false true persona question)
    = Ok page /\
    adjusted page =
      {| yield_boost := 1100; solar_pct := 30;
         biomass := 60; carbon_offset := 10.5 |} /\
    kpis page = ["1100.0"; "30.0"; "60.00"; "10.50"] /\
    economic page =
      {| yield_revenue := 242; solar_savings := 3600;
         bio_revenue := 2700; carbon_revenue := 892.5;
         total_impact := 7434.5 |} /\
    impact page = "7,434".
Proof.
  set (rq := Sample.request county year true false true persona question).
  assert (H : select [Sample.example_row county year]
                (selected_county rq) (selected_year rq)
              = [Sample.example_row county year])
    by exact (select_own_key (Sample.example_row county year)).
  destruct (script_resolved _ _ _ _ H) as (a & answer & Ha & _ & Hs).
  rewrite (apply_toggles_resolved _ _ _ _ H) in Ha.
  injection Ha as <-.
  eexists. split; [exact Hs|]. repeat split.
Qed.

(** C6: for every resolved row the AI-SCEAL answer prints, to one decimal,
    exactly [100 - min(100, Yield/6 + Solar + Biomass*2)] computed from the
    raw yield, solar and biomass fields of that row. *)
Theorem ai_sceal_risk_score_formula county year df r rest :
  select df county year = r :: rest ->
  generate_persona_response "AI-SCEAL" county year df =
  Ok ("AI-SCEAL: Citizen confidence correlates with visible green returns. "
      ++ "In " ++ Fmt.of_Z year ++ ", the combined bio-solar-carbon mix in "
      ++ county ++ " suggests a policy risk score of "
      ++ Fmt.format_f 1
           (100 - py_min 100 (CRISPR_YieldBoost r / 6 + SolarAdoption r
                              + BiomassOutput r * 2))
      ++ ". " ++ "Targeted awareness campaigns should begin immediately.").
Proof.
  intros H. unfold generate_persona_response. rewrite H. reflexivity.
Qed.

Lemma ai_sceal_risk_score_formula_witness :
  select Sample.dup_df "Kerry" 2024 = [Sample.row "Kerry" 2024 700 12 20 5] /\
  generate_persona_response "AI-SCEAL" "Kerry" 2024 Sample.dup_df =
  Ok ("AI-SCEAL: Citizen confidence correlates with visible green returns. "
      ++ "In " ++ Fmt.of_Z 2024 ++ ", the combined bio-solar-carbon mix in "
      ++ "Kerry" ++ " suggests a policy risk score of "
      ++ Fmt.format_f 1 (100 - py_min 100 (700 / 6 + 12 + 20 * 2))
      ++ ". " ++ "Targeted awareness campaigns should begin immediately.").
Proof.
  split; [reflexivity|].
  apply (ai_sceal_risk_score_formula "Kerry" 2024 Sample.dup_df
           (Sample.row "Kerry" 2024 700 12 20 5) []).
  reflexivity.
Defined.

(** C7: with the agro toggle on and the other two off, a run over a resolved
    row multiplies the yield by 1.1 and leaves the solar share, the biomass
    and the carbon credits at their base values. *)
Theorem agro_alone_frame df rq r rest :
  select df (selected_county rq) (selected_year rq) = r :: rest ->
  agro_toggle rq = true ->
  solar_toggle rq = false ->
  bio_toggle rq = false ->
  exists page,
    script df rq = Ok page /\
    yield_boost (adjusted page) = CRISPR_YieldBoost r * 1.1 /\
    solar_pct (adjusted page) = SolarAdoption r /\
    biomass (adjusted page) = BiomassOutput r /\
    carbon_offset (adjusted page) = CarbonCreditsEarned r.
Proof.
  intros H Hagro Hsolar Hbio.
  destruct (script_resolved _ _ _ _ H) as (a & answer & Ha & _ & Hs).
  rewrite (apply_toggles_resolved _ _ _ _ H), Hagro, Hsolar, Hbio in Ha.
  injection Ha as <-.
  eexists. split; [exact Hs|]. repeat split.
Qed.

Lemma agro_alone_frame_witness :
  exists page,
    script Sample.gap_df
      (Sample.request "Dublin" 2026 true false false "GRAINA" "") = Ok page /\
    yield_boost (adjusted page) = (900 * 1.1)%float /\
    solar_pct (adjusted page) = 25%float /\
    biomass (adjusted page) = 40%float /\
    carbon_offset (adjusted page) = 8%float.
Proof.
  apply (agro_alone_frame Sample.gap_df
           (Sample.request "Dublin" 2026 true false false "GRAINA" "")
           (Sample.row "Dublin" 2026 900 25 40 8) []);
    reflexivity.
Defined.

(** C8: two requests for the same resolved key, persona and question that
    differ at most in their toggles both run to the end and show the same
    persona response: the response is computed from the raw row, not from
    the adjusted figures. *)
Theorem response_ignores_toggles df rq rq' r rest :
  select df (selected_county rq) (selected_year rq) = r :: rest ->
  selected_county rq' = selected_county rq ->
  selected_year rq' = selected_year rq ->
  persona rq' = persona rq ->
  question rq' = question rq ->
  exists page page',
    script df rq = Ok page /\
    script df rq' = Ok page' /\
    response page' = response page.
Proof.
  intros H Hc Hy Hp Hq.
  assert (H' : select df (selected_county rq') (selected_year rq') = r :: rest)
    by (rewrite Hc, Hy; exact H).
  destruct (script_resolved _ _ _ _ H) as (a & answer & _ & Hi & Hs).
  destruct (script_resolved _ _ _ _ H') as (a' & answer' & _ & Hi' & Hs').
  rewrite (persona_interface_ext df rq rq' Hc Hy Hp Hq), Hi in Hi'.
  injection Hi' as <-.
  do 2 eexists. split; [exact Hs|]. split; [exact Hs'|]. reflexivity.
Qed.

Lemma response_ignores_toggles_witness :
  exists page page',
    script Sample.dup_df
      (Sample.request "Cork" 2025 false false false "AI-SCEAL" "Risk?")
    = Ok page /\
    script Sample.dup_df
      (Sample.request "Cork" 2025 true true true "AI-SCEAL" "Risk?")
    = Ok page' /\
    response page' = response page.
Proof.
  apply (response_ignores_toggles Sample.dup_df
           (Sample.request "Cork" 2025 false false false "AI-SCEAL" "Risk?")
           (Sample.request "Cork" 2025 true true true "AI-SCEAL" "Risk?")
           (Sample.row "Cork" 2025 1000 30 50 10)
           [Sample.row "Cork" 2025 400 80 5 3]);
    reflexivity.
Defined.

(** C9: for a persona key that is none of the four known ones and a resolved
    row, the generator returns the fixed "no persona" sentence and does not
    fail. *)
Theorem unknown_persona_sentinel persona county year df r rest :
  persona <> "ÉIREA" ->
  persona <> "SOLARA" ->
  persona <> "GRAINA" ->
  persona <> "AI-SCEAL" ->
  select df county year = r :: rest ->
  generate_persona_response persona county year df =
  Ok "No persona selected.".
Proof.
  intros H1 H2 H3 H4 H. unfold generate_persona_response. rewrite H.
  apply String.eqb_neq in H1, H2, H3, H4. simpl.
  rewrite H1, H2, H3, H4. reflexivity.
Qed.

Lemma unknown_persona_sentinel_witness :
  generate_persona_response "TEAGASC" "Dublin" 2026 Sample.gap_df =
  Ok "No persona selected.".
Proof.
  apply (unknown_persona_sentinel "TEAGASC" "Dublin" 2026 Sample.gap_df
           (Sample.row "Dublin" 2026 900 25 40 8) []);
    try reflexivity; apply String.eqb_neq; reflexivity.
Defined.

(** C10: when more than one row matches the selected key, nothing checks or
    rejects it and both readers take the values of the first matching row:
    the adjusted metrics of the run are that row's raw values with the
    toggles applied, and the answer of the persona generator, for each of
    the four personas, is its template filled with that row's raw values. *)
Theorem duplicate_key_first_row df rq r r' rest :
  select df (selected_county rq) (selected_year rq) = r :: r' :: rest ->
  (exists page,
     script df rq = Ok page /\
     adjusted page =
       {| yield_boost := if agro_toggle rq then CRISPR_YieldBoost r * 1.1
                         else CRISPR_YieldBoost r;
          solar_pct := if solar_toggle rq then SolarAdoption r * 1.15
                       else SolarAdoption r;
          biomass := if bio_toggle rq then BiomassOutput r * 1.2
                     else BiomassOutput r;
          carbon_offset := if bio_toggle rq then CarbonCreditsEarned r * 1.05
                           else CarbonCreditsEarned r |}) /\
  generate_persona_response
    "ÉIREA" (selected_county rq) (selected_year rq) df =
  Ok ("ÉIREA: In " ++ Fmt.of_Z (selected_year rq) ++ ", "
      ++ selected_county rq
      ++ " achieved a CRISPR-driven yield boost of "
      ++ Fmt.format_f 1 (CRISPR_YieldBoost r) ++ " kg/ha. "
      ++ "This provides a solid base for transitioning to more resilient agroforestry systems. "
      ++ "Agroforestry support programs should prioritize regions with >"
      ++ Fmt.format_f 1 (CRISPR_YieldBoost r)
      ++ " kg/ha to capitalize on biological synergies.") /\
  generate_persona_response
    "SOLARA" (selected_county rq) (selected_year rq) df =
  Ok ("SOLARA: As of " ++ Fmt.of_Z (selected_year rq)
      ++ ", solar adoption in " ++ selected_county rq
      ++ " reached " ++ Fmt.format_f 1 (SolarAdoption r) ++ "%. "
      ++ "If current CAP solar incentives continue, we expect adoption to exceed "
      ++ Fmt.format_f 1 (SolarAdoption r * 1.15) ++ "% by "
      ++ Fmt.of_Z (selected_year rq + 1) ++ ". "
      ++ "Consider aligning grid feed-in tariffs accordingly.") /\
  generate_persona_response
    "GRAINA" (selected_county rq) (selected_year rq) df =
  Ok ("GRAINA: With " ++ Fmt.format_f 0 (CRISPR_YieldBoost r)
      ++ " kg/ha in yields and "
      ++ Fmt.format_f 2 (CarbonCreditsEarned r) ++ " mtCO₂ in credits, "
      ++ selected_county rq
      ++ " is positioned to enhance traceability premiums by 8–12% over baseline. "
      ++ "Local cooperatives should focus on export certification training in Q"
      ++ Fmt.of_Z (selected_year rq mod 4 + 1) ++ ".") /\
  generate_persona_response
    "AI-SCEAL" (selected_county rq) (selected_year rq) df =
  Ok ("AI-SCEAL: Citizen confidence correlates with visible green returns. "
      ++ "In " ++ Fmt.of_Z (selected_year rq)
      ++ ", the combined bio-solar-carbon mix in " ++ selected_county rq
      ++ " suggests a policy risk score of "
      ++ Fmt.format_f 1
           (100 - py_min 100 (CRISPR_YieldBoost r / 6 + SolarAdoption r
                              + BiomassOutput r * 2))
      ++ ". " ++ "Targeted awareness campaigns should begin immediately.").
Proof.
  intros H. split.
  - destruct (script_resolved _ _ _ _ H) as (a & answer & Ha & _ & Hs).
    rewrite (apply_toggles_resolved _ _ _ _ H) in Ha. injection Ha as <-.
    eexists. split; [exact Hs|]. reflexivity.
  - unfold generate_persona_response. rewrite H. repeat split.
Qed.

Lemma duplicate_key_first_row_witness :
  select Sample.dup_df "Cork" 2025 =
    [Sample.row "Cork" 2025 1000 30 50 10; Sample.row "Cork" 2025 400 80 5 3]
  /\
  (exists page,
     script Sample.dup_df Sample.dup_request = Ok page /\
     adjusted page =
       {| yield_boost := 1000 * 1.1; solar_pct := 30 * 1.15;
          biomass := 50 * 1.2; carbon_offset := 10 * 1.05 |}) /\
  generate_persona_response "ÉIREA" "Cork" 2025 Sample.dup_df =
  Ok ("ÉIREA: In " ++ Fmt.of_Z 2025 ++ ", " ++ "Cork"
      ++ " achieved a CRISPR-driven yield boost of "
      ++ Fmt.format_f 1 1000 ++ " kg/ha. "
      ++ "This provides a solid base for transitioning to more resilient agroforestry systems. "
      ++ "Agroforestry support programs should prioritize regions with >"
      ++ Fmt.format_f 1 1000
      ++ " kg/ha to capitalize on biological synergies.") /\
  generate_persona_response "SOLARA" "Cork" 2025 Sample.dup_df =
  Ok ("SOLARA: As of " ++ Fmt.of_Z 2025
      ++ ", solar adoption in " ++ "Cork"
      ++ " reached " ++ Fmt.format_f 1 30 ++ "%. "
      ++ "If current CAP solar incentives continue, we expect adoption to exceed "
      ++ Fmt.format_f 1 (30 * 1.15) ++ "% by "
      ++ Fmt.of_Z (2025 + 1) ++ ". "
      ++ "Consider aligning grid feed-in tariffs accordingly.") /\
  generate_persona_response "GRAINA" "Cork" 2025 Sample.dup_df =
  Ok ("GRAINA: With " ++ Fmt.format_f 0 1000
      ++ " kg/ha in yields and "
      ++ Fmt.format_f 2 10 ++ " mtCO₂ in credits, "
      ++ "Cork"
      ++ " is positioned to enhance traceability premiums by 8–12% over baseline. "
      ++ "Local cooperatives should focus on export certification training in Q"
      ++ Fmt.of_Z (2025 mod 4 + 1) ++ ".") /\
  generate_persona_response "AI-SCEAL" "Cork" 2025 Sample.dup_df =
  Ok ("AI-SCEAL: Citizen confidence correlates with visible green returns. "
      ++ "In " ++ Fmt.of_Z 2025
      ++ ", the combined bio-solar-carbon mix in " ++ "Cork"
      ++ " suggests a policy risk score of "
      ++ Fmt.format_f 1 (100 - py_min 100 (1000 / 6 + 30 + 50 * 2))
      ++ ". " ++ "Targeted awareness campaigns should begin immediately.").
Proof.
  split; [reflexivity|].
  apply (duplicate_key_first_row Sample.dup_df Sample.dup_request
           (Sample.row "Cork" 2025 1000 30 50 10)
           (Sample.row "Cork" 2025 400 80 5 3) []).
  reflexivity.
Defined.

(** * Beyond the claims *)

(** * Binary64 facts: NaN through products, quotients and sums *)

Module Binary64Arith.

Lemma is_nan_Prim2SF x : is_nan x = true <-> Prim2SF x = S754_nan.
Proof.
  unfold is_nan. rewrite FloatAxioms.eqb_spec. unfold SFeqb, SFcompare.
  destruct (Prim2SF x) as [[]|[]| |[] m e]; simpl;
    rewrite ?Z.compare_refl, ?Pcompare_refl; simpl;
    split; intros H; try discriminate H; reflexivity.
Qed.

Lemma mul_nan x c : Prim2SF x = S754_nan -> Prim2SF (x * c) = S754_nan.
Proof. intros H. rewrite mul_spec, H. reflexivity. Qed.

Lemma div_nan x c : Prim2SF x = S754_nan -> Prim2SF (x / c) = S754_nan.
Proof. intros H. rewrite div_spec, H. reflexivity. Qed.

Lemma add_nan_l x y : Prim2SF x = S754_nan -> Prim2SF (x + y) = S754_nan.
Proof. intros H. rewrite add_spec, H. reflexivity. Qed.

Lemma add_nan_r x y : Prim2SF y = S754_nan -> Prim2SF (x + y) = S754_nan.
Proof.
  intros H. rewrite add_spec, H.
  destruct (Prim2SF x) as [[]|[]| |[] m e]; reflexivity.
Qed.

End Binary64Arith.

(** * Printed figures *)


Lemma of_N_unsigned n : exists c rest,
  Fmt.of_N n = String c rest /\ Ascii.eqb c "-" = false.
Proof.
  unfold Fmt.of_N, NilZero.string_of_uint.
  destruct (N.to_uint n); simpl; do 2 eexists; split; reflexivity.
Qed.

Lemma fixed_unsigned g n p : leading_minus (Fmt.fixed g n p) = false.
Proof.
  unfold Fmt.fixed.
  destruct (of_N_unsigned (n / 10 ^ N.of_nat p)) as (c & rest & -> & Hc).
  destruct g; simpl; exact Hc.
Qed.

(** A value with its sign bit clear prints without a minus sign. *)
Lemma format_fixed_unsigned g p x :
  sign_clear (Prim2SF x) = true -> leading_minus (Fmt.format_fixed g p x) = false.
Proof.
  unfold Fmt.format_fixed.
  destruct (Prim2SF x) as [[]|[]| |[] m e]; intros H; try discriminate H;
    try reflexivity; apply fixed_unsigned.
Qed.

Lemma format_fixed_nan g p x :
  Prim2SF x = S754_nan -> Fmt.format_fixed g p x = "nan".
Proof. intros H. unfold Fmt.format_fixed. rewrite H. reflexivity. Qed.

(** * A key with no row *)

Lemma select_nil_iff df county year :
  select df county year = [] <->
  forall r, In r df -> ~ (County r = county /\ Year r = year).
Proof.
  split.
  - intros H r Hin [Hc Hy].
    assert (Hs : In r (select df county year)).
    { unfold select. apply filter_In. split; [exact Hin|].
      rewrite <- Hc, <- Hy, String.eqb_refl, Z.eqb_refl. reflexivity. }
    rewrite H in Hs. exact Hs.
  - intros H. destruct (select df county year) as [|r rest] eqn:E;
      [reflexivity|exfalso].
    assert (Hs : In r (select df county year)) by (rewrite E; left; reflexivity).
    apply (H r).
    + unfold select in Hs. apply filter_In in Hs. apply Hs.
    + apply (select_In df county year r Hs).
Qed.

(** X1: lines 24 to 38 yield adjusted metrics exactly when the table holds a
    row under the requested (County, Year) key; with no such row, and only
    then, the extraction of line 27 raises [IndexError]. *)
Theorem adjusted_metrics_iff_key_present df rq :
  ((exists a, apply_toggles df rq = Ok a) <->
   (exists r, In r df /\ matches rq r)) /\
  (apply_toggles df rq = Raise IndexError <->
   (forall r, In r df -> ~ matches rq r)).
Proof.
  unfold matches.
  pose proof (select_nil_iff df (selected_county rq) (selected_year rq)) as Hn.
  destruct (select df (selected_county rq) (selected_year rq))
    as [|r rest] eqn:E.
  - rewrite (apply_toggles_missing df rq E). split; split.
    + intros [a H]. discriminate H.
    + intros (r & Hin & Hm). exfalso. exact (proj1 Hn eq_refl r Hin Hm).
    + intros _. apply Hn. reflexivity.
    + reflexivity.
  - rewrite (apply_toggles_resolved df rq r rest E).
    assert (Hin : In r (select df (selected_county rq) (selected_year rq)))
      by (rewrite E; left; reflexivity).
    split; split.
    + intros _. exists r. split.
      * unfold select in Hin. apply filter_In in Hin. apply Hin.
      * apply (select_In _ _ _ _ Hin).
    + intros _. eexists. reflexivity.
    + intros H. discriminate H.
    + intros H. apply Hn in H. discriminate H.
Qed.

(** A resolved key is never answered with the "no data" sentence. *)
Lemma resolved_answer_is_not_no_data persona county year df r rest :
  select df county year = r :: rest ->
  generate_persona_response persona county year df <> Ok no_data.
Proof.
  intros H. unfold generate_persona_response. rewrite H.
  cbn [empty values0 bind].
  destruct (String.eqb persona "ÉIREA"); [intros E; discriminate E|].
  destruct (String.eqb persona "SOLARA"); [intros E; discriminate E|].
  destruct (String.eqb persona "GRAINA"); [intros E; discriminate E|].
  destruct (String.eqb persona "AI-SCEAL"); intros E; discriminate E.
Qed.

(** X2: the persona generator never raises, whatever the table, the key and
    the persona; and it answers with the "no data" sentence exactly when no
    row of the table is stored under the key, for every persona, known or
    not. *)
Theorem persona_generator_never_raises persona county year df :
  (exists text, generate_persona_response persona county year df = Ok text) /\
  (generate_persona_response persona county year df =
     Ok "No data available for this county and year." <->
   forall r, In r df -> ~ (County r = county /\ Year r = year)).
Proof.
  split; [apply generate_persona_response_total|]. split.
  - intros H. apply select_nil_iff.
    destruct (select df county year) as [|r rest] eqn:E; [reflexivity|].
    exfalso.
    exact (resolved_answer_is_not_no_data persona county year df r rest E H).
  - intros H. apply generate_persona_response_missing, select_nil_iff, H.
Qed.

(** * The sign of the printed risk score *)

(** X3: the risk score of the AI-SCEAL answer is never printed with a minus
    sign (in particular never as "-0.0"): its sign bit is clear for every
    row. *)
Theorem ai_sceal_score_prints_unsigned county year df r rest :
  select df county year = r :: rest ->
  exists score,
    generate_persona_response "AI-SCEAL" county year df =
    Ok ("AI-SCEAL: Citizen confidence correlates with visible green returns. "
        ++ "In " ++ Fmt.of_Z year ++ ", the combined bio-solar-carbon mix in "
        ++ county ++ " suggests a policy risk score of " ++ score ++ ". "
        ++ "Targeted awareness campaigns should begin immediately.") /\
    leading_minus score = false.
Proof.
  intros H.
  exists (Fmt.format_f 1 (risk_score (CRISPR_YieldBoost r) (SolarAdoption r)
                            (BiomassOutput r))).
  split.
  - unfold generate_persona_response. rewrite H. reflexivity.
  - apply format_fixed_unsigned, risk_score_sign.
Qed.

Lemma ai_sceal_score_prints_unsigned_witness :
  exists score,
    generate_persona_response "AI-SCEAL" "Dublin" 2026 Sample.gap_df =
    Ok ("AI-SCEAL: Citizen confidence correlates with visible green returns. "
        ++ "In " ++ Fmt.of_Z 2026 ++ ", the combined bio-solar-carbon mix in "
        ++ "Dublin" ++ " suggests a policy risk score of " ++ score ++ ". "
        ++ "Targeted awareness campaigns should begin immediately.") /\
    leading_minus score = false.
Proof.
  apply (ai_sceal_score_prints_unsigned "Dublin" 2026 Sample.gap_df
           (Sample.row "Dublin" 2026 900 25 40 8) []).
  reflexivity.
Defined.

(** * Blank cells *)

Ltac nan_solve :=
  solve [ assumption
        | apply Binary64Arith.mul_nan; nan_solve
        | apply Binary64Arith.div_nan; nan_solve
        | apply Binary64Arith.add_nan_l; nan_solve
        | apply Binary64Arith.add_nan_r; nan_solve ].

(** X5: a NaN in any of the four metrics of the selected row (a blank cell
    of the file) passes through lines 27 to 38 and 104 to 111 without an
    exception; the total is then NaN and the revenue headline of line 114
    reads "nan", under every toggle combination. *)
Theorem blank_metric_blanks_headline df rq r rest :
  select df (selected_county rq) (selected_year rq) = r :: rest ->
  existsb is_nan (metrics r) = true ->
  exists a,
    apply_toggles df rq = Ok a /\
    is_nan (total_impact (economic_impact a)) = true /\
    display_impact (economic_impact a) = "nan".
Proof.
  intros H Hm.
  rewrite (apply_toggles_resolved _ _ _ _ H).
  eexists. split; [reflexivity|].
  assert (Hn : Prim2SF
                 (total_impact
                    (economic_impact
                       {| yield_boost := if agro_toggle rq
                                         then CRISPR_YieldBoost r * 1.1
                                         else CRISPR_YieldBoost r;
                          solar_pct := if solar_toggle rq
                                       then SolarAdoption r * 1.15
                                       else SolarAdoption r;
                          biomass := if bio_toggle rq
                                     then BiomassOutput r * 1.2
                                     else BiomassOutput r;
                          carbon_offset := if bio_toggle rq
                                           then CarbonCreditsEarned r * 1.05
                                           else CarbonCreditsEarned r |}))
               = S754_nan).
  { unfold metrics in Hm. simpl in Hm.
    rewrite !orb_true_iff, !Binary64Arith.is_nan_Prim2SF in Hm.
    unfold economic_impact, grain_price_per_kg, price_per_tonne.
    cbn [yield_boost solar_pct biomass carbon_offset total_impact].
    destruct Hm as [Hy|[Hsol|[Hb|[Hc|Hf]]]]; [| | | |discriminate Hf];
      destruct (agro_toggle rq), (solar_toggle rq), (bio_toggle rq);
      nan_solve. }
  split.
  - apply Binary64Arith.is_nan_Prim2SF, Hn.
  - unfold display_impact, Fmt.format_comma_f.
    apply format_fixed_nan, Hn.
Qed.

Lemma blank_metric_blanks_headline_witness :
  exists a,
    apply_toggles Cases.blank_df (Cases.mayo 2031 "GRAINA" "") = Ok a /\
    is_nan (total_impact (economic_impact a)) = true /\
    display_impact (economic_impact a) = "nan".
Proof.
  apply (blank_metric_blanks_headline Cases.blank_df
           (Cases.mayo 2031 "GRAINA" "")
           (Sample.row "Mayo" 2031 1200 nan 12 6) []);
    reflexivity.
Defined.

(** X6: a NaN in the yield, solar or biomass cell of the selected row makes
    the AI-SCEAL answer report the risk score "0.0": the comparison inside
    [min] is false on NaN, so the cap of 100 is subtracted. *)
Theorem blank_metric_zero_risk county year df r rest :
  select df county year = r :: rest ->
  existsb is_nan [CRISPR_YieldBoost r; SolarAdoption r; BiomassOutput r]
    = true ->
  generate_persona_response "AI-SCEAL" county year df =
  Ok ("AI-SCEAL: Citizen confidence correlates with visible green returns. "
      ++ "In " ++ Fmt.of_Z year ++ ", the combined bio-solar-carbon mix in "
      ++ county ++ " suggests a policy risk score of " ++ "0.0" ++ ". "
      ++ "Targeted awareness campaigns should begin immediately.").
Proof.
  intros H Hm.
  assert (Hr : risk_score (CRISPR_YieldBoost r) (SolarAdoption r)
                 (BiomassOutput r) = 0%float).
  { simpl in Hm. rewrite !orb_true_iff, !Binary64Arith.is_nan_Prim2SF in Hm.
    assert (Hs : Prim2SF (CRISPR_YieldBoost r / 6 + SolarAdoption r
                          + BiomassOutput r * 2) = S754_nan)
      by (destruct Hm as [Hy|[Hsol|[Hb|Hf]]]; [| | |discriminate Hf];
          nan_solve).
    unfold risk_score, py_min. rewrite ltb_spec, Hs. reflexivity. }
  unfold generate_persona_response. rewrite H.
  cbn [empty values0 bind]. rewrite Hr. reflexivity.
Qed.

Lemma blank_metric_zero_risk_witness :
  generate_persona_response "AI-SCEAL" "Mayo" 2030 Cases.blank_df =
  Ok ("AI-SCEAL: Citizen confidence correlates with visible green returns. "
      ++ "In " ++ Fmt.of_Z 2030 ++ ", the combined bio-solar-carbon mix in "
      ++ "Mayo" ++ " suggests a policy risk score of " ++ "0.0" ++ ". "
      ++ "Targeted awareness campaigns should begin immediately.").
Proof.
  apply (blank_metric_zero_risk "Mayo" 2030 Cases.blank_df
           (Sample.row "Mayo" 2030 nan 40 12 6) []);
    reflexivity.
Defined.

(** * How the controls compose *)

(** X7: each toggle reaches its own figures only.  For two runs on the same
    key, equal agro toggles give equal yield and yield revenue, equal solar
    toggles give equal solar share and solar savings, and equal bio toggles
    give equal biomass, carbon credits and both of their revenues, whatever
    the other toggles, the persona and the question are. *)
Theorem toggles_reach_own_figures_only df rq rq' page page' :
  script df rq = Ok page ->
  script df rq' = Ok page' ->
  selected_county rq' = selected_county rq ->
  selected_year rq' = selected_year rq ->
  (agro_toggle rq' = agro_toggle rq ->
   yield_boost (adjusted page') = yield_boost (adjusted page) /\
   yield_revenue (economic page') = yield_revenue (economic page)) /\
  (solar_toggle rq' = solar_toggle rq ->
   solar_pct (adjusted page') = solar_pct (adjusted page) /\
   solar_savings (economic page') = solar_savings (economic page)) /\
  (bio_toggle rq' = bio_toggle rq ->
   biomass (adjusted page') = biomass (adjusted page) /\
   carbon_offset (adjusted page') = carbon_offset (adjusted page) /\
   bio_revenue (economic page') = bio_revenue (economic page) /\
   carbon_revenue (economic page') = carbon_revenue (economic page)).
Proof.
  intros Hp Hp' Hc Hy.
  destruct (select df (selected_county rq) (selected_year rq))
    as [|r rest] eqn:E.
  - rewrite (script_missing df rq E) in Hp. discriminate Hp.
  - assert (E' : select df (selected_county rq') (selected_year rq')
                 = r :: rest) by (rewrite Hc, Hy; exact E).
    destruct (script_resolved _ _ _ _ E) as (a & answer & Ha & _ & Hs).
    destruct (script_resolved _ _ _ _ E') as (a' & answer' & Ha' & _ & Hs').
    rewrite Hs in Hp. injection Hp as <-.
    rewrite Hs' in Hp'. injection Hp' as <-.
    rewrite (apply_toggles_resolved _ _ _ _ E) in Ha. injection Ha as <-.
    rewrite (apply_toggles_resolved _ _ _ _ E') in Ha'. injection Ha' as <-.
    cbn. split; [|split]; intros He; rewrite He; repeat split.
Qed.

Lemma toggles_reach_own_figures_only_witness :
  exists page page',
    script Sample.dup_df
      (Sample.request "Cork" 2025 true false false "GRAINA" "") = Ok page /\
    script Sample.dup_df
      (Sample.request "Cork" 2025 true true true "SOLARA" "Why?") = Ok page' /\
    yield_boost (adjusted page') = yield_boost (adjusted page) /\
    yield_revenue (economic page') = yield_revenue (economic page).
Proof.
  do 2 eexists. split; [reflexivity|]. split; [reflexivity|].
  apply (proj1 (toggles_reach_own_figures_only Sample.dup_df
                  (Sample.request "Cork" 2025 true false false "GRAINA" "")
                  (Sample.request "Cork" 2025 true true true "SOLARA" "Why?")
                  _ _ eq_refl eq_refl eq_refl eq_refl)).
  reflexivity.
Defined.

(** X8: the quarter named by the GRAINA answer is one of Q1 to Q4 for every
    year, negative years included. *)
Theorem graina_quarter_in_range county year df r rest :
  select df county year = r :: rest ->
  exists q,
    In q ["1"; "2"; "3"; "4"] /\
    generate_persona_response "GRAINA" county year df =
    Ok ("GRAINA: With " ++ Fmt.format_f 0 (CRISPR_YieldBoost r)
        ++ " kg/ha in yields and "
        ++ Fmt.format_f 2 (CarbonCreditsEarned r) ++ " mtCO₂ in credits, "
        ++ county
        ++ " is positioned to enhance traceability premiums by 8–12% over baseline. "
        ++ "Local cooperatives should focus on export certification training in Q"
        ++ q ++ ".").
Proof.
  intros H. exists (Fmt.of_Z (year mod 4 + 1)). split.
  - pose proof (Z.mod_pos_bound year 4 ltac:(lia)) as Hb.
    assert (Hq : (year mod 4 = 0 \/ year mod 4 = 1 \/ year mod 4 = 2
                  \/ year mod 4 = 3)%Z) by lia.
    destruct Hq as [-> |[-> |[-> | ->]]]; simpl; auto.
  - unfold generate_persona_response. rewrite H. reflexivity.
Qed.

Lemma graina_quarter_in_range_witness :
  exists q,
    In q ["1"; "2"; "3"; "4"] /\
    generate_persona_response "GRAINA" "Kerry" 2024 Sample.dup_df =
    Ok ("GRAINA: With " ++ Fmt.format_f 0 700
        ++ " kg/ha in yields and "
        ++ Fmt.format_f 2 5 ++ " mtCO₂ in credits, "
        ++ "Kerry"
        ++ " is positioned to enhance traceability premiums by 8–12% over baseline. "
        ++ "Local cooperatives should focus on export certification training in Q"
        ++ q ++ ".").
Proof.
  apply (graina_quarter_in_range "Kerry" 2024 Sample.dup_df
           (Sample.row "Kerry" 2024 700 12 20 5) []).
  reflexivity.
Defined.

(** X9: the text of the question is never read.  Two runs on the same key
    and persona whose questions are both non-empty show the same answer, and
    they do show one. *)
Theorem response_ignores_question_text df rq rq' page page' :
  script df rq = Ok page ->
  script df rq' = Ok page' ->
  selected_county rq' = selected_county rq ->
  selected_year rq' = selected_year rq ->
  persona rq' = persona rq ->
  question rq <> "" ->
  question rq' <> "" ->
  response page' = response page /\ response page <> None.
Proof.
  intros Hp Hp' Hc Hy Hpe Hq Hq'.
  apply String.eqb_neq in Hq, Hq'.
  unfold script in Hp, Hp'.
  destruct (apply_toggles df rq) as [a|e]; [|discriminate Hp].
  destruct (apply_toggles df rq') as [a'|e']; [|discriminate Hp'].
  cbn [bind] in Hp, Hp'. unfold persona_interface in Hp, Hp'.
  rewrite Hq in Hp. rewrite Hq', Hc, Hy, Hpe in Hp'.
  destruct (generate_persona_response (persona rq) (selected_county rq)
              (selected_year rq) df) as [text|e]; [|discriminate Hp].
  cbn [bind] in Hp, Hp'.
  injection Hp as <-. injection Hp' as <-.
  split; [reflexivity|discriminate].
Qed.

Lemma response_ignores_question_text_witness :
  exists page page',
    script Sample.gap_df
      (Sample.request "Dublin" 2026 false false false "SOLARA" "Why?")
    = Ok page /\
    script Sample.gap_df
      (Sample.request "Dublin" 2026 false false false "SOLARA" "How much?")
    = Ok page' /\
    response page' = response page /\ response page <> None.
Proof.
  do 2 eexists. split; [reflexivity|]. split; [reflexivity|].
  apply (response_ignores_question_text Sample.gap_df
           (Sample.request "Dublin" 2026 false false false "SOLARA" "Why?")
           (Sample.request "Dublin" 2026 false false false "SOLARA"
              "How much?")
           _ _ eq_refl eq_refl eq_refl eq_refl eq_refl);
    apply String.eqb_neq; reflexivity.
Defined.

(** X10: the SOLARA answer projects exactly the figure the solar toggle
    shows.  With the solar toggle on, the "expected to exceed" percentage of
    the answer is, character for character, the solar KPI of the same
    run. *)
Theorem solara_projection_is_boosted_kpi df rq r rest :
  select df (selected_county rq) (selected_year rq) = r :: rest ->
  solar_toggle rq = true ->
  persona rq = "SOLARA" ->
  question rq <> "" ->
  exists page shown,
    script df rq = Ok page /\
    nth_error (kpis page) 1 = Some shown /\
    response page =
    Some ("SOLARA: As of " ++ Fmt.of_Z (selected_year rq)
          ++ ", solar adoption in " ++ selected_county rq
          ++ " reached " ++ Fmt.format_f 1 (SolarAdoption r) ++ "%. "
          ++ "If current CAP solar incentives continue, we expect adoption to exceed "
          ++ shown ++ "% by " ++ Fmt.of_Z (selected_year rq + 1) ++ ". "
          ++ "Consider aligning grid feed-in tariffs accordingly.").
Proof.
  intros H Hs Hp Hq. apply String.eqb_neq in Hq.
  unfold script. rewrite (apply_toggles_resolved _ _ _ _ H).
  unfold persona_interface, generate_persona_response.
  rewrite Hq, Hp, H, Hs. cbn [bind empty values0].
  do 2 eexists. split; [reflexivity|]. split; reflexivity.
Qed.

Lemma solara_projection_is_boosted_kpi_witness :
  exists page shown,
    script Sample.gap_df
      (Sample.request "Dublin" 2026 false true false "SOLARA" "Outlook?")
    = Ok page /\
    nth_error (kpis page) 1 = Some shown /\
    response page =
    Some ("SOLARA: As of " ++ Fmt.of_Z 2026
          ++ ", solar adoption in " ++ "Dublin"
          ++ " reached " ++ Fmt.format_f 1 25 ++ "%. "
          ++ "If current CAP solar incentives continue, we expect adoption to exceed "
          ++ shown ++ "% by " ++ Fmt.of_Z (2026 + 1) ++ ". "
          ++ "Consider aligning grid feed-in tariffs accordingly.").
Proof.
  apply (solara_projection_is_boosted_kpi Sample.gap_df
           (Sample.request "Dublin" 2026 false true false "SOLARA" "Outlook?")
           (Sample.row "Dublin" 2026 900 25 40 8) []);
    try reflexivity.
  apply String.eqb_neq; reflexivity.
Defined.

(** * The rows behind the charts *)

(** X11: the rows selected for the KPIs are the rows of the trend charts
    that carry the selected year, in the same order; so whenever the page
    renders, the row behind its figures is one of the charted rows. *)
Theorem kpi_rows_are_charted df county year :
  select df county year
    = filter (fun r => Z.eqb (Year r) year) (hist df county) /\
  incl (select df county year) (hist df county).
Proof.
  assert (E : select df county year
              = filter (fun r => Z.eqb (Year r) year) (hist df county)).
  { unfold select, hist. induction df as [|r df IH]; [reflexivity|].
    simpl. destruct (String.eqb (County r) county); simpl.
    - destruct (Z.eqb (Year r) year); [rewrite IH|]; auto.
    - exact IH. }
  split; [exact E|].
  rewrite E. intros r Hin. apply filter_In in Hin. apply Hin.
Qed.
